(** * The event routes of [v0/events.py] over a relational store

    The routes of the [events] router are embedded as functions that take the
    session injected by [Depends(get_db)] and give back what the handler
    returns together with the session afterwards.  The router calls into
    [EventCRUD], which is kept as an interface; the routes are defined, and
    every property that the routes alone decide is proved, for any
    implementation of it.  A model of [EventCRUD] over finite maps follows the
    service description and is used for the properties that depend on what the
    store does. *)

From stdpp Require Import gmap strings list fin_maps.
From Stdlib Require Import ZArith.

(** ** Data model *)

(** [uuid.UUID]: a 128-bit value, kept as a natural number. *)
Abbreviation UUID := N (only parsing).

(** [datetime]: a point in time, kept as a count of microseconds. *)
Abbreviation datetime := Z (only parsing).

(** Modelled from the spec: [api_models.Person], an id and a name. *)
Record Person := mkPerson {
  person_id : UUID;
  person_name : string
}.

(** Modelled from the spec: [api_models.Event].  The routes build it with the
    keywords [id], [title], [description], [time] and [persons]; [cancelled]
    is the boolean of the data model, false unless given. *)
Record Event := mkEvent {
  ev_id : UUID;
  ev_title : string;
  ev_description : string;
  ev_time : datetime;
  ev_cancelled : bool;
  ev_persons : list Person
}.

(** [Event(id=.., title=.., description=.., time=.., persons=..)]: the
    constructor call of the routes, [cancelled] left at its default. *)
Definition Event_ (id : UUID) (title description : string) (time : datetime)
    (persons : list Person) : Event :=
  mkEvent id title description time false persons.

(** Modelled from the spec: an Event row of the store with the set of Person
    ids associated with it. *)
Record EventRow := mkEventRow {
  row_title : string;
  row_description : string;
  row_time : datetime;
  row_cancelled : bool;
  row_persons : gset UUID
}.

(** Modelled from the spec: the object that [EventCRUD.get_all_events] yields
    per row; the route reads [id], [title], [description] and [time] of it. *)
Record DBEvent := mkDBEvent {
  db_event_id : UUID;
  db_event_row : EventRow
}.

(** Modelled from the spec: what a [Session] gives access to, the Person rows
    (name by id) and the Event rows (by id). *)
Record Session := mkSession {
  person_table : gmap UUID string;
  event_table : gmap UUID EventRow
}.

(** ** Responses *)

(** [starlette.status] *)
Definition HTTP_200_OK : Z := 200.
Definition HTTP_201_CREATED : Z := 201.
Definition HTTP_404_NOT_FOUND : Z := 404.

(** The JSON bodies the routes produce. *)
Inductive Content :=
| Null                                  (* None *)
| EventJSON (e : Event)
| EventListJSON (l : list Event)
| Detail (detail : string).             (* {"detail": detail} *)

Record Response := JSONResponse {
  status_code : Z;
  content : Content
}.

Inductive Exception :=
| NotImplementedError.

(** What a handler hands to the framework: a value, which is sent with the
    status code of the route decorator; a response object, which is sent as it
    is; or an exception. *)
Inductive Returned :=
| Value (c : Content)
| Direct (r : Response)
| Raises (e : Exception).

(** What the client of a route observes. *)
Inductive Outcome :=
| Return (r : Response)
| Raise (e : Exception).

Definition respond (status : Z) (r : Returned) : Outcome :=
  match r with
  | Value c => Return (JSONResponse status c)
  | Direct r => Return r
  | Raises e => Raise e
  end.

(** A value that may be [None], as a JSON body. *)
Definition optional (o : option Event) : Content :=
  match o with
  | Some e => EventJSON e
  | None => Null
  end.

(** ** The interface of [crud.EventCRUD]

    The calls the routes make, with the argument order of the source.  A
    result that may be [None] is an [option]; a call that writes returns the
    session afterwards.  [create_with_persons] is not given an id by the
    route: [uuid4] stands for the value that [uuid4()] yields during the call. *)
Module EventCRUD.
Class API := {
  get_all_events : Session → list DBEvent;
  get_persons_from_event : Session → UUID → list Person;
  create_without_persons :
    Session → UUID → string → string → datetime → Event * Session;
  create_with_persons :
    UUID → Session → string → string → datetime → list Person →
    option Event * Session;
  read_by_id : Session → UUID → option Event;
  add_people_to_event : Session → list UUID → UUID → option Event * Session;
  delete_by_id : Session → UUID → option Event * Session
}.
End EventCRUD.

(** ** The routes *)

Inductive Request :=
| GET_events                                                (* GET / *)
| POST_create_no_persons (event : Event)
| POST_create_with_persons (event : Event) (persons : list Person)
| GET_event (event_id : UUID)                               (* GET /{event_id} *)
| PUT_event (event_id : UUID) (event : Event)               (* PUT /{event_id} *)
| PUT_add_persons (event_id : UUID) (person_ids : list UUID)
| DELETE_event (event_id : UUID)
| PATCH_cancel (event_id : UUID).

Section routes.
Context {crud : EventCRUD.API}.

Definition get_all_events (db : Session) : Returned * Session :=
  let db_events := EventCRUD.get_all_events db in
  let events_list :=
    (λ db_event,
       Event_ (db_event_id db_event)
              (row_title (db_event_row db_event))
              (row_description (db_event_row db_event))
              (row_time (db_event_row db_event))
              (EventCRUD.get_persons_from_event db (db_event_id db_event)))
    <$> db_events in
  (Value (EventListJSON events_list), db).

Definition create_event_without_persons (event : Event) (db : Session)
    : Returned * Session :=
  let '(created, db') :=
    EventCRUD.create_without_persons
      db (ev_id event) (ev_title event) (ev_description event) (ev_time event) in
  (Value (EventJSON created), db').

Definition create_event_with_persons (uuid4 : UUID) (event : Event)
    (persons : list Person) (db : Session) : Returned * Session :=
  let '(result, db') :=
    EventCRUD.create_with_persons
      uuid4 db (ev_title event) (ev_description event) (ev_time event) persons in
  match result with
  | None =>
      (Direct (JSONResponse HTTP_404_NOT_FOUND (Detail "Person not found")), db')
  | Some _ =>
      (Value (EventJSON (Event_ (ev_id event) (ev_title event)
                                (ev_description event) (ev_time event) persons)),
       db')
  end.

(** [if db_event:] an object is true, [None] is false. *)
Definition get_event (event_id : UUID) (db : Session) : Returned * Session :=
  match EventCRUD.read_by_id db event_id with
  | Some db_event => (Value (EventJSON db_event), db)
  | None =>
      (Direct (JSONResponse HTTP_404_NOT_FOUND (Detail "Person not found")), db)
  end.

(** No session is injected into this handler. *)
Definition update_event (event_id : UUID) (event : Event) : Returned :=
  Raises NotImplementedError.

Definition add_persons_to_event (event_id : UUID) (person_ids : list UUID)
    (db : Session) : Returned * Session :=
  let '(result, db') := EventCRUD.add_people_to_event db person_ids event_id in
  (Value (optional result), db').

Definition delete_event (event_id : UUID) (db : Session) : Returned * Session :=
  let '(db_event, db') := EventCRUD.delete_by_id db event_id in
  match db_event with
  | Some deleted => (Value (EventJSON deleted), db')
  | None =>
      (Direct (JSONResponse HTTP_404_NOT_FOUND (Detail "Person not found")), db')
  end.

(** No session is injected into this handler; its body is a bare [return]. *)
Definition flip_cancel_event (event_id : UUID) : Returned :=
  Value Null.

(** The router: each route with the status code of its decorator (200 where
    none is given).  A handler without a session leaves the store as it is. *)
Definition events (uuid4 : UUID) (req : Request) (db : Session)
    : Outcome * Session :=
  match req with
  | GET_events =>
      prod_map (respond HTTP_200_OK) id (get_all_events db)
  | POST_create_no_persons event =>
      prod_map (respond HTTP_201_CREATED) id (create_event_without_persons event db)
  | POST_create_with_persons event persons =>
      prod_map (respond HTTP_201_CREATED) id
               (create_event_with_persons uuid4 event persons db)
  | GET_event event_id =>
      prod_map (respond HTTP_200_OK) id (get_event event_id db)
  | PUT_event event_id event =>
      (respond HTTP_200_OK (update_event event_id event), db)
  | PUT_add_persons event_id person_ids =>
      prod_map (respond HTTP_200_OK) id (add_persons_to_event event_id person_ids db)
  | DELETE_event event_id =>
      prod_map (respond HTTP_200_OK) id (delete_event event_id db)
  | PATCH_cancel event_id =>
      (respond HTTP_200_OK (flip_cancel_event event_id), db)
  end.
End routes.

(** ** The services, over the store *)

Module PersonService.
(** Modelled from the spec: [get(id) -> Person | NotFound], the lookup of a
    Person by id that the Event service uses as its existence check. *)
Definition get (db : Session) (id : UUID) : option Person :=
  mkPerson id <$> person_table db !! id.
End PersonService.

Module EventService.
(** Modelled from the spec: the Person set of an Event row resolved against
    the Person service; an id that no longer resolves contributes nothing. *)
Definition resolve (db : Session) (row : EventRow) : list Person :=
  omap (PersonService.get db) (elements (row_persons row)).

(** Modelled from the spec: an Event row as the Event handed back to the
    routes, with its resolved Person set. *)
Definition snapshot (db : Session) (id : UUID) (row : EventRow) : Event :=
  mkEvent id (row_title row) (row_description row) (row_time row)
          (row_cancelled row) (resolve db row).

(** Modelled from the spec: writing a row of the Event table. *)
Definition put_event (id : UUID) (row : EventRow) (db : Session) : Session :=
  mkSession (person_table db) (<[id := row]> (event_table db)).

(** Modelled from the spec: an Event row with its association set replaced. *)
Definition set_persons (attached : gset UUID) (row : EventRow) : EventRow :=
  mkEventRow (row_title row) (row_description row) (row_time row)
             (row_cancelled row) attached.

(** Modelled from the spec: removing a row of the Event table, and with it
    the association set it carries. *)
Definition remove_event (id : UUID) (db : Session) : Session :=
  mkSession (person_table db) (delete id (event_table db)).

(** Modelled from the spec: [get_all_events], all Event rows. *)
Definition get_all_events (db : Session) : list DBEvent :=
  (λ entry, mkDBEvent entry.1 entry.2) <$> map_to_list (event_table db).

(** Modelled from the spec: the resolved Person set of the Event [id],
    attached by the listing route to each Event. *)
Definition get_persons_from_event (db : Session) (id : UUID) : list Person :=
  match event_table db !! id with
  | Some row => resolve db row
  | None => []
  end.

(** Modelled from the spec: [read_by_id(id) -> Event | NotFound], the Event
    together with its resolved Person set. *)
Definition read_by_id (db : Session) (id : UUID) : option Event :=
  snapshot db id <$> event_table db !! id.

(** Modelled from the spec: [create_without_persons(id, title, description,
    time) -> Event] persists an Event with an empty association set under
    the id the caller supplies, and always succeeds. *)
Definition create_without_persons (db : Session) (id : UUID)
    (title description : string) (time : datetime) : Event * Session :=
  let row := mkEventRow title description time false ∅ in
  (Event_ id title description time [], put_event id row db).

(** Modelled from the spec: [create_with_persons(title, description, time,
    persons) -> Event | NotFound].  Every supplied Person is resolved by id;
    if any does not resolve nothing is persisted and the result is [None];
    otherwise the Event is created under a newly assigned id with the
    association set of the resolved Persons. *)
Definition create_with_persons (uuid4 : UUID) (db : Session)
    (title description : string) (time : datetime) (persons : list Person)
    : option Event * Session :=
  match mapM (λ person, PersonService.get db (person_id person)) persons with
  | None => (None, db)
  | Some resolved =>
      let row :=
        mkEventRow title description time false
                   (list_to_set (person_id <$> resolved)) in
      (Some (Event_ uuid4 title description time resolved),
       put_event uuid4 row db)
  end.

(** Modelled from the spec: the loop of [add_persons_to_event] over the
    person ids: each id is checked for existence and inserted into the
    association set if absent; the first id that does not exist ends it. *)
Fixpoint attach (db : Session) (person_ids : list UUID) (attached : gset UUID)
    : option (gset UUID) :=
  match person_ids with
  | [] => Some attached
  | person_id :: rest =>
      match PersonService.get db person_id with
      | None => None
      | Some _ => attach db rest ({[person_id]} ∪ attached)
      end
  end.

(** Modelled from the spec: [add_persons_to_event(event_id, person_ids) ->
    Event | NotFound].  The Event must exist and every person id must exist;
    on a failure no association change is retained. *)
Definition add_people_to_event (db : Session) (person_ids : list UUID)
    (event_id : UUID) : option Event * Session :=
  match event_table db !! event_id with
  | None => (None, db)
  | Some row =>
      match attach db person_ids (row_persons row) with
      | None => (None, db)
      | Some attached =>
          let db' := put_event event_id (set_persons attached row) db in
          (read_by_id db' event_id, db')
      end
  end.

(** Modelled from the spec: [delete_by_id(id) -> Event | NotFound] removes
    the Event, and with it its association rows, and returns the deleted
    snapshot. *)
Definition delete_by_id (db : Session) (id : UUID) : option Event * Session :=
  match read_by_id db id with
  | None => (None, db)
  | Some deleted =>
      (Some deleted, remove_event id db)
  end.

(** The services as the implementation of [EventCRUD] behind the routes. *)
Definition crud : EventCRUD.API := {|
  EventCRUD.get_all_events := get_all_events;
  EventCRUD.get_persons_from_event := get_persons_from_event;
  EventCRUD.create_without_persons := create_without_persons;
  EventCRUD.create_with_persons := create_with_persons;
  EventCRUD.read_by_id := read_by_id;
  EventCRUD.add_people_to_event := add_people_to_event;
  EventCRUD.delete_by_id := delete_by_id
|}.
End EventService.

(** The application: the router over the services. *)
Definition app : UUID → Request → Session → Outcome * Session :=
  events (crud := EventService.crud).

(** The response every not-found branch of the routes builds. *)
Definition not_found : Response :=
  JSONResponse HTTP_404_NOT_FOUND (Detail "Person not found").

(** ** Referential integrity and the row a request writes *)

(** Every Person id in the association set of an Event row has a Person
    row. *)
Definition consistent (db : Session) : Prop :=
  map_Forall
    (λ _ row, set_Forall (λ id, is_Some (person_table db !! id)) (row_persons row))
    (event_table db).

(** The id of the Event row that the handler of a request hands to a writing
    call of [EventCRUD]: the id of the payload for [create_no_persons], the
    newly assigned id for [create_with_persons], the id of the path for
    [add_persons] and [DELETE]; the other handlers make no writing call. *)
Definition written_event (uuid4 : UUID) (req : Request) : option UUID :=
  match req with
  | POST_create_no_persons event => Some (ev_id event)
  | POST_create_with_persons _ _ => Some uuid4
  | PUT_add_persons event_id _ => Some event_id
  | DELETE_event event_id => Some event_id
  | GET_events | GET_event _ | PUT_event _ _ | PATCH_cancel _ => None
  end.

(** ** A small store

    Persons 1 and 2; Event 10 with Person 1 attending, Event 11 cancelled and
    without Persons.  No Person 3, no Event 7. *)
Definition sample_db : Session :=
  mkSession
    (<[1%N := "Person1"]> (<[2%N := "Person2"]> ∅))
    (<[10%N := mkEventRow "standup" "daily" 1700000000 false {[1%N]}]>
       (<[11%N := mkEventRow "retro" "monthly" 1700003600 true ∅]> ∅)).

Example sample_read :
  EventService.read_by_id sample_db 10%N
  = Some (mkEvent 10%N "standup" "daily" 1700000000 false [mkPerson 1%N "Person1"]).
Proof. vm_compute. reflexivity. Qed.

Example sample_add :
  fst (app 0%N (PUT_add_persons 10%N [2%N]) sample_db)
  = Return (JSONResponse 200 (EventJSON
      (mkEvent 10%N "standup" "daily" 1700000000 false
               [mkPerson 2%N "Person2"; mkPerson 1%N "Person1"]))).
Proof. vm_compute. reflexivity. Qed.

(** ** What the routes decide on their own

    These hold for every implementation of [EventCRUD]. *)

Section route_properties.
Context {crud : EventCRUD.API}.

(** The handlers that carry no session never touch the store. *)
Lemma events_sessionless uuid4 req db :
  match req with
  | PUT_event _ _ | PATCH_cancel _ => (events uuid4 req db).2 = db
  | _ => True
  end.
Proof. by destruct req. Qed.

(** The reading routes leave the store as it is. *)
Lemma get_event_pure event_id db : (get_event event_id db).2 = db.
Proof. unfold get_event. by destruct (EventCRUD.read_by_id db event_id). Qed.

(** C8: for every input, [PUT /events/{id}] raises [NotImplementedError],
    the handler returns no response at all, and the store is left as it
    was. *)
Theorem update_event_not_implemented uuid4 event_id event db :
  update_event event_id event = Raises NotImplementedError ∧
  events uuid4 (PUT_event event_id event) db = (Raise NotImplementedError, db).
Proof. split; reflexivity. Qed.

(** C9: whichever route of the router answers with status 404, and whatever
    the cause (Event lookup, Event deletion, a missing Person at creation),
    the response is the same one: status 404 with the detail
    "Person not found". *)
Theorem not_found_uniform uuid4 req db r :
  (events uuid4 req db).1 = Return r →
  status_code r = HTTP_404_NOT_FOUND →
  r = JSONResponse HTTP_404_NOT_FOUND (Detail "Person not found").
Proof.
  destruct req as [|event|event persons|event_id|event_id event
                   |event_id person_ids|event_id|event_id];
    cbn [events].
  - intros [= <-]; discriminate.
  - unfold create_event_without_persons.
    destruct (EventCRUD.create_without_persons _ _ _ _ _) as [created db'].
    intros [= <-]; discriminate.
  - unfold create_event_with_persons.
    destruct (EventCRUD.create_with_persons _ _ _ _ _ _) as [[created|] db'].
    + intros [= <-]; discriminate.
    + by intros [= <-].
  - unfold get_event.
    destruct (EventCRUD.read_by_id db event_id) as [db_event|].
    + intros [= <-]; discriminate.
    + by intros [= <-].
  - discriminate.
  - unfold add_persons_to_event.
    destruct (EventCRUD.add_people_to_event _ _ _) as [result db'].
    intros [= <-]; discriminate.
  - unfold delete_event.
    destruct (EventCRUD.delete_by_id db event_id) as [[deleted|] db'].
    + intros [= <-]; discriminate.
    + by intros [= <-].
  - intros [= <-]; discriminate.
Qed.

(** C10: when the creation call succeeds, the response of
    [create_event_with_persons] is built from the request alone: the id,
    title, description and time of the payload and the persons list as
    sent.  The id of the payload is not an argument of the creation call, so
    the store afterwards is the same for every id the caller sends, and some
    id the caller can send is echoed although no stored Event has it. *)
Theorem create_with_persons_echoes_request
    uuid4 id title description time cancelled attached persons db :
  is_Some (EventCRUD.create_with_persons uuid4 db title description time persons).1 →
  let db' :=
    (EventCRUD.create_with_persons uuid4 db title description time persons).2 in
  let response id :=
    Return (JSONResponse HTTP_201_CREATED
              (EventJSON (Event_ id title description time persons))) in
  let request id :=
    POST_create_with_persons
      (mkEvent id title description time cancelled attached) persons in
  events uuid4 (request id) db = (response id, db') ∧
  ∃ id', event_table db' !! id' = None ∧
         events uuid4 (request id') db = (response id', db').
Proof.
  intros Hcreated db' response request.
  assert (∀ i, events uuid4 (request i) db = (response i, db')) as Hecho.
  { intros i. subst db' response request. cbn [events ev_title ev_description ev_time ev_id].
    unfold create_event_with_persons. cbn [ev_title ev_description ev_time ev_id].
    destruct (EventCRUD.create_with_persons _ _ _ _ _ _) as [[created|] db1];
      [reflexivity | by destruct Hcreated]. }
  split; [apply Hecho|].
  exists (fresh (dom (event_table db'))). split; [|apply Hecho].
  apply not_elem_of_dom, is_fresh.
Qed.

(** C3, as the route has it: for every event id, whether an Event has it or
    not, [PATCH /events/{id}/cancel] answers 200 with an empty body; it
    never answers 404. *)
Theorem flip_cancel_event_always_ok uuid4 event_id db :
  flip_cancel_event event_id = Value Null ∧
  (events uuid4 (PATCH_cancel event_id) db).1 = Return (JSONResponse HTTP_200_OK Null).
Proof. split; reflexivity. Qed.

(** When [EventCRUD.add_people_to_event] reports nothing found by returning
    [None], the route passes it on as a body under its own status code. *)
Lemma add_persons_passes_none uuid4 event_id person_ids db db' :
  EventCRUD.add_people_to_event db person_ids event_id = (None, db') →
  events uuid4 (PUT_add_persons event_id person_ids) db
  = (Return (JSONResponse HTTP_200_OK Null), db').
Proof.
  intros Hnone. cbn [events]. unfold add_persons_to_event. by rewrite Hnone.
Qed.
End route_properties.

(** ** The store under the services *)

Section store_lemmas.
Import EventService.
Implicit Types (db : Session) (row : EventRow) (attached : gset N).

Lemma put_event_lookup id row db :
  event_table (put_event id row db) !! id = Some row.
Proof. apply lookup_insert_eq. Qed.

Lemma put_event_twice id row row' db :
  put_event id row' (put_event id row db) = put_event id row' db.
Proof. unfold put_event; cbn. by rewrite insert_insert_eq. Qed.

Lemma put_event_same id row db :
  event_table db !! id = Some row → put_event id row db = db.
Proof.
  intros Hrow. destruct db as [people evs]; unfold put_event; cbn in *.
  by rewrite insert_id.
Qed.

Lemma remove_put_event id row db :
  event_table db !! id = None → remove_event id (put_event id row db) = db.
Proof.
  intros Hnone. destruct db as [people evs]; unfold remove_event, put_event; cbn in *.
  by rewrite delete_insert_eq, delete_id.
Qed.

Lemma set_persons_same row : set_persons (row_persons row) row = row.
Proof. by destruct row. Qed.

Lemma set_persons_twice attached attached' row :
  set_persons attached' (set_persons attached row) = set_persons attached' row.
Proof. reflexivity. Qed.

Lemma person_get_None db id :
  PersonService.get db id = None ↔ person_table db !! id = None.
Proof. unfold PersonService.get. apply fmap_None. Qed.

Lemma person_get_is_Some db id :
  is_Some (PersonService.get db id) ↔ is_Some (person_table db !! id).
Proof. unfold PersonService.get. apply fmap_is_Some. Qed.

(** The loop over the person ids: it ends in [None] as soon as one id has no
    Person, and otherwise yields the union with the ids. *)
Lemma attach_None db person_ids attached :
  Exists (λ id, person_table db !! id = None) person_ids →
  attach db person_ids attached = None.
Proof.
  intros Hmissing. revert attached.
  induction Hmissing as [id rest Hid|id rest _ IH]; intros attached; cbn.
  - apply person_get_None in Hid. by rewrite Hid.
  - destruct (PersonService.get db id); [apply IH | done].
Qed.

Lemma attach_Some db person_ids attached :
  Forall (λ id, is_Some (person_table db !! id)) person_ids →
  attach db person_ids attached = Some (list_to_set person_ids ∪ attached).
Proof.
  intros Hall. revert attached.
  induction Hall as [|id rest Hid _ IH]; intros attached; cbn [attach].
  - by rewrite list_to_set_nil, (left_id_L ∅ (∪)).
  - apply person_get_is_Some in Hid as [person ->].
    rewrite IH, list_to_set_cons. f_equal.
    by rewrite (assoc_L (∪)), (comm_L (∪) (list_to_set rest) {[id]}).
Qed.

(** [add_people_to_event] when the Event or one of the Persons is missing:
    nothing found, and the store as it was. *)
Lemma add_people_to_event_not_found db person_ids event_id :
  event_table db !! event_id = None
  ∨ Exists (λ id, person_table db !! id = None) person_ids →
  add_people_to_event db person_ids event_id = (None, db).
Proof.
  intros [Hevent|Hperson]; unfold add_people_to_event.
  - by rewrite Hevent.
  - destruct (event_table db !! event_id) as [row|]; [|done].
    by rewrite attach_None.
Qed.

(** [add_people_to_event] when the Event and all the Persons exist: the
    association set grows by the ids, nothing else changes. *)
Lemma add_people_to_event_found db person_ids event_id row :
  event_table db !! event_id = Some row →
  Forall (λ id, is_Some (person_table db !! id)) person_ids →
  let db' :=
    put_event event_id (set_persons (list_to_set person_ids ∪ row_persons row) row) db in
  add_people_to_event db person_ids event_id = (read_by_id db' event_id, db').
Proof.
  intros Hrow Hall. unfold add_people_to_event.
  by rewrite Hrow, attach_Some.
Qed.

(** Adding the same existing Persons a second time changes nothing more. *)
Lemma add_people_to_event_twice db person_ids event_id :
  is_Some (event_table db !! event_id) →
  Forall (λ id, is_Some (person_table db !! id)) person_ids →
  let once := add_people_to_event db person_ids event_id in
  add_people_to_event once.2 person_ids event_id = once.
Proof.
  intros [row Hrow] Hall once. subst once.
  rewrite (add_people_to_event_found db person_ids event_id row Hrow Hall).
  cbn [snd].
  erewrite add_people_to_event_found; [|apply put_event_lookup|done].
  rewrite put_event_twice, set_persons_twice. cbn [row_persons set_persons].
  by rewrite (assoc_L (∪)), (idemp_L (∪)).
Qed.

End store_lemmas.

(** ** The routes over the services *)

Section application.
Import EventService.
Implicit Types (db : Session) (row : EventRow).

(** C1: when at least one Person of the list has an id that resolves to no
    Person, [create_with_persons] persists nothing, the store is the one
    before the call, and the route answers 404. *)
Theorem create_with_persons_atomic uuid4 event persons db :
  (∃ person, person ∈ persons ∧ person_table db !! person_id person = None) →
  create_with_persons uuid4 db (ev_title event) (ev_description event)
                      (ev_time event) persons
  = (None, db) ∧
  app uuid4 (POST_create_with_persons event persons) db
  = (Return (JSONResponse HTTP_404_NOT_FOUND (Detail "Person not found")), db).
Proof.
  intros Hmissing.
  assert (create_with_persons uuid4 db (ev_title event) (ev_description event)
                              (ev_time event) persons = (None, db)) as Hnone.
  { unfold create_with_persons. rewrite mapM_None_2; [done|].
    apply Exists_exists. destruct Hmissing as (person & Hin & Hid).
    exists person. split; [done|]. by apply person_get_None. }
  split; [done|].
  unfold app. cbn [events]. unfold create_event_with_persons.
  cbn [EventCRUD.create_with_persons crud]. by rewrite Hnone.
Qed.

(** C2, the route at ids that do not exist: the service finds nothing and
    keeps the store, and the route answers 200 with an empty body, for an
    Event that does not exist as well as for a Person that does not. *)
Theorem add_persons_to_event_unknown_ids :
  add_people_to_event sample_db [1%N] 7%N = (None, sample_db) ∧
  app 0%N (PUT_add_persons 7%N [1%N]) sample_db
  = (Return (JSONResponse HTTP_200_OK Null), sample_db) ∧
  add_people_to_event sample_db [2%N; 3%N] 10%N = (None, sample_db) ∧
  app 0%N (PUT_add_persons 10%N [2%N; 3%N]) sample_db
  = (Return (JSONResponse HTTP_200_OK Null), sample_db).
Proof. repeat split; vm_compute; reflexivity. Qed.

(** C3 fails on the route: Event 7 does not exist and the route answers 200,
    not 404; Event 10 exists and its [cancelled] flag is the same after the
    call. *)
Lemma flip_cancel_event_counterexample :
  event_table sample_db !! 7%N = None ∧
  (app 0%N (PATCH_cancel 7%N) sample_db).1 = Return (JSONResponse 200 Null) ∧
  (app 0%N (PATCH_cancel 7%N) sample_db).1
  ≠ Return (JSONResponse HTTP_404_NOT_FOUND (Detail "Person not found")) ∧
  row_cancelled <$> event_table sample_db !! 10%N = Some false ∧
  row_cancelled <$> event_table (app 0%N (PATCH_cancel 10%N) sample_db).2 !! 10%N
  = Some false.
Proof. repeat split; (vm_compute; reflexivity) || discriminate. Qed.

(** C5: after [create_event_without_persons] with the fields (id, title,
    description, time), the Event is read back under the id the caller
    sent, with those four values and no Persons. *)
Theorem create_without_persons_round_trip
    uuid4 uuid4' id title description time cancelled persons db :
  let created := Event_ id title description time [] in
  let db' :=
    (app uuid4 (POST_create_no_persons
                  (mkEvent id title description time cancelled persons)) db).2 in
  app uuid4 (POST_create_no_persons
               (mkEvent id title description time cancelled persons)) db
  = (Return (JSONResponse HTTP_201_CREATED (EventJSON created)), db') ∧
  read_by_id db' id = Some created ∧
  app uuid4' (GET_event id) db'
  = (Return (JSONResponse HTTP_200_OK (EventJSON created)), db').
Proof.
  intros created db'. split; [reflexivity|].
  assert (read_by_id db' id = Some created) as Hread.
  { subst db' created. unfold app. cbn [events]. unfold create_event_without_persons.
    cbn. unfold read_by_id. rewrite put_event_lookup. cbn.
    unfold snapshot, resolve. cbn. by rewrite elements_empty. }
  split; [done|].
  unfold app. cbn [events]. unfold get_event.
  cbn [EventCRUD.read_by_id crud]. by rewrite Hread.
Qed.

(** C6: for an existing Event and an existing Person, the second
    [add_persons_to_event] with the same Person gives the response and the
    store of the first; a list that repeats the id gives the same store; the
    association set afterwards is the one before with the Person in it; and
    when the Person was associated already the store does not change. *)
Theorem add_persons_to_event_idempotent uuid4 uuid4' event_id person db :
  is_Some (event_table db !! event_id) →
  is_Some (person_table db !! person) →
  let once := app uuid4 (PUT_add_persons event_id [person]) db in
  app uuid4' (PUT_add_persons event_id [person]) once.2 = once ∧
  (app uuid4 (PUT_add_persons event_id [person; person]) db).2 = once.2 ∧
  row_persons <$> event_table once.2 !! event_id
  = (λ row, {[person]} ∪ row_persons row) <$> event_table db !! event_id ∧
  (∀ row, event_table db !! event_id = Some row →
          person ∈ row_persons row → once.2 = db).
Proof.
  intros [row Hrow] Hperson once.
  assert (Forall (λ id, is_Some (person_table db !! id)) [person]) as Hall
    by (by constructor).
  assert (Forall (λ id, is_Some (person_table db !! id)) [person; person]) as Hall2
    by (by repeat constructor).
  assert (list_to_set [person] ∪ row_persons row
          = {[person]} ∪ row_persons row :> gset N) as Hattached
    by (by rewrite list_to_set_cons, list_to_set_nil, (right_id_L ∅ (∪))).
  assert (list_to_set [person; person] ∪ row_persons row
          = {[person]} ∪ row_persons row :> gset N) as Hrepeated
    by (by rewrite list_to_set_cons, <-(assoc_L (∪)), Hattached, (assoc_L (∪)),
                   (idemp_L (∪))).
  pose proof (add_people_to_event_found db [person] event_id row Hrow Hall) as Hone.
  pose proof (add_people_to_event_found db [person; person] event_id row Hrow Hall2)
    as Hrep.
  pose proof (add_people_to_event_twice db [person] event_id
                (mk_is_Some _ _ Hrow) Hall) as Htwice.
  cbn zeta in Hone, Hrep, Htwice.
  rewrite Hone in Htwice. rewrite Hattached in Hone, Htwice.
  rewrite Hrepeated in Hrep. cbn [snd] in Htwice.
  set (db1 := put_event event_id (set_persons ({[person]} ∪ row_persons row) row) db)
    in *.
  assert (event_table db1 !! event_id
          = Some (set_persons ({[person]} ∪ row_persons row) row)) as Hrow1
    by apply put_event_lookup.
  assert (∀ u ids db0 r, EventService.add_people_to_event db0 ids event_id = r →
            app u (PUT_add_persons event_id ids) db0
            = (Return (JSONResponse HTTP_200_OK (optional r.1)), r.2)) as Hroute.
  { intros u ids db0 [r0 r1] Hr. unfold app. cbn [events].
    unfold add_persons_to_event. cbn [EventCRUD.add_people_to_event crud].
    by rewrite Hr. }
  subst once. rewrite (Hroute _ _ _ _ Hone), (Hroute _ _ _ _ Hrep). cbn [fst snd].
  rewrite (Hroute _ _ _ _ Htwice). cbn [fst snd].
  split; [done|]. split; [done|]. split.
  - by rewrite Hrow1, Hrow.
  - intros row' Hrow' Hin. rewrite Hrow in Hrow'. injection Hrow' as <-.
    assert ({[person]} ∪ row_persons row = row_persons row) as Hsame
      by (by apply subseteq_union_1_L, singleton_subseteq_l).
    subst db1. rewrite Hsame, set_persons_same. by apply put_event_same.
Qed.

(** C7: for an id that no Event has, reading and deleting answer 404 and
    leave the store as it is; for an id that an Event has, deleting answers
    200 with the Event as it was, the Event is gone from the store, and
    reading it afterwards answers 404. *)
Theorem get_delete_by_id uuid4 uuid4' id db :
  match event_table db !! id with
  | None =>
      app uuid4 (GET_event id) db
      = (Return (JSONResponse HTTP_404_NOT_FOUND (Detail "Person not found")), db) ∧
      app uuid4 (DELETE_event id) db
      = (Return (JSONResponse HTTP_404_NOT_FOUND (Detail "Person not found")), db)
  | Some row =>
      let db' := remove_event id db in
      app uuid4 (GET_event id) db
      = (Return (JSONResponse HTTP_200_OK (EventJSON (snapshot db id row))), db) ∧
      app uuid4 (DELETE_event id) db
      = (Return (JSONResponse HTTP_200_OK (EventJSON (snapshot db id row))), db') ∧
      event_table db' !! id = None ∧
      (∀ id', id' ≠ id → event_table db' !! id' = event_table db !! id') ∧
      person_table db' = person_table db ∧
      app uuid4' (GET_event id) db'
      = (Return (JSONResponse HTTP_404_NOT_FOUND (Detail "Person not found")), db')
  end.
Proof.
  unfold app. cbn [events]. unfold get_event, delete_event.
  cbn [EventCRUD.read_by_id EventCRUD.delete_by_id crud].
  unfold delete_by_id, read_by_id.
  destruct (event_table db !! id) as [row|] eqn:Hrow; cbn.
  - rewrite lookup_delete_eq. cbn. repeat split; try done.
    intros id' Hne. by apply lookup_delete_ne.
  - done.
Qed.
End application.

(** ** The theorems at the sample store *)

(** Person 3 does not exist: creation with it persists nothing and answers
    404. *)
Lemma create_with_persons_atomic_witness :
  (∃ person, person ∈ [mkPerson 3%N "Person2"]
             ∧ person_table sample_db !! person_id person = None) ∧
  app 12%N (POST_create_with_persons (Event_ 99%N "blah" "blah" 1700007200 [])
                                     [mkPerson 3%N "Person2"]) sample_db
  = (Return (JSONResponse HTTP_404_NOT_FOUND (Detail "Person not found")), sample_db).
Proof.
  assert (∃ person, person ∈ [mkPerson 3%N "Person2"]
                    ∧ person_table sample_db !! person_id person = None) as Hmissing.
  { exists (mkPerson 3%N "Person2"). split; [constructor | vm_compute; reflexivity]. }
  split; [exact Hmissing|].
  exact (proj2 (create_with_persons_atomic
                  12%N (Event_ 99%N "blah" "blah" 1700007200 [])
                  [mkPerson 3%N "Person2"] sample_db Hmissing)).
Defined.

(** Event 10 and Person 2 exist: adding Person 2 a second time gives the
    response and the store of the first time. *)
Lemma add_persons_to_event_idempotent_witness :
  is_Some (event_table sample_db !! 10%N) ∧
  is_Some (person_table sample_db !! 2%N) ∧
  app 0%N (PUT_add_persons 10%N [2%N])
      (app 0%N (PUT_add_persons 10%N [2%N]) sample_db).2
  = app 0%N (PUT_add_persons 10%N [2%N]) sample_db.
Proof.
  assert (is_Some (event_table sample_db !! 10%N)) as Hevent
    by (eexists; vm_compute; reflexivity).
  assert (is_Some (person_table sample_db !! 2%N)) as Hperson
    by (eexists; vm_compute; reflexivity).
  split; [exact Hevent|]. split; [exact Hperson|].
  exact (proj1 (add_persons_to_event_idempotent
                  0%N 0%N 10%N 2%N sample_db Hevent Hperson)).
Defined.

(** Event 7 does not exist: reading it answers 404, with the one not-found
    response of the router. *)
Lemma not_found_uniform_witness :
  (app 0%N (GET_event 7%N) sample_db).1 = Return not_found ∧
  status_code not_found = HTTP_404_NOT_FOUND ∧
  not_found = JSONResponse HTTP_404_NOT_FOUND (Detail "Person not found").
Proof.
  assert ((app 0%N (GET_event 7%N) sample_db).1 = Return not_found) as Hresponse
    by (vm_compute; reflexivity).
  assert (status_code not_found = HTTP_404_NOT_FOUND) as Hstatus by reflexivity.
  split; [exact Hresponse|]. split; [exact Hstatus|].
  exact (not_found_uniform (crud := EventService.crud)
           0%N (GET_event 7%N) sample_db not_found Hresponse Hstatus).
Defined.

(** Person 1 exists: creation succeeds, the response carries the id 99 of the
    payload, and the Event is stored under the assigned id 12, not under 99. *)
Lemma create_with_persons_echoes_request_witness :
  let db' :=
    (EventService.create_with_persons
       12%N sample_db "blah" "blah" 1700007200 [mkPerson 1%N "Person2"]).2 in
  is_Some (EventService.create_with_persons
             12%N sample_db "blah" "blah" 1700007200 [mkPerson 1%N "Person2"]).1 ∧
  app 12%N (POST_create_with_persons
              (mkEvent 99%N "blah" "blah" 1700007200 false [])
              [mkPerson 1%N "Person2"]) sample_db
  = (Return (JSONResponse HTTP_201_CREATED
               (EventJSON (Event_ 99%N "blah" "blah" 1700007200
                                  [mkPerson 1%N "Person2"]))),
     db') ∧
  event_table db' !! 99%N = None ∧
  event_table db' !! 12%N
  = Some (mkEventRow "blah" "blah" 1700007200 false {[1%N]}).
Proof.
  intros db'.
  assert (is_Some (EventService.create_with_persons
                     12%N sample_db "blah" "blah" 1700007200
                     [mkPerson 1%N "Person2"]).1) as Hcreated
    by (eexists; vm_compute; reflexivity).
  split; [exact Hcreated|]. split.
  - exact (proj1 (create_with_persons_echoes_request
                    (crud := EventService.crud)
                    12%N 99%N "blah" "blah" 1700007200 false []
                    [mkPerson 1%N "Person2"] sample_db Hcreated)).
  - split; vm_compute; reflexivity.
Defined.

(** The three causes of a 404 at the sample store: an Event that cannot be
    read, an Event that cannot be deleted, a Person missing at creation. *)
Example not_found_three_causes :
  (app 0%N (GET_event 7%N) sample_db).1 = Return not_found ∧
  (app 0%N (DELETE_event 7%N) sample_db).1 = Return not_found ∧
  (app 0%N (POST_create_with_persons (Event_ 99%N "blah" "blah" 1700007200 [])
                                     [mkPerson 3%N "Person2"]) sample_db).1
  = Return not_found.
Proof. repeat split; vm_compute; reflexivity. Qed.

(** ** The contract of the router

    For every implementation of [EventCRUD]. *)

Section route_contract.
Context {crud : EventCRUD.API}.

(** X1: what each route of the router can answer.  The listing answers 200
    with a list; the two creation routes answer 201 with an Event, the one
    with persons also 404; reading and deleting answer 200 with an Event or
    404; adding persons answers 200 with an Event or an empty body; the cancel
    route answers 200 with an empty body; the update route raises and answers
    nothing. *)
Theorem events_response_shapes uuid4 req db :
  let outcome := (events uuid4 req db).1 in
  let missing := Return (JSONResponse HTTP_404_NOT_FOUND (Detail "Person not found")) in
  match req with
  | GET_events =>
      ∃ l, outcome = Return (JSONResponse HTTP_200_OK (EventListJSON l))
  | POST_create_no_persons _ =>
      ∃ e, outcome = Return (JSONResponse HTTP_201_CREATED (EventJSON e))
  | POST_create_with_persons _ _ =>
      (∃ e, outcome = Return (JSONResponse HTTP_201_CREATED (EventJSON e)))
      ∨ outcome = missing
  | GET_event _ | DELETE_event _ =>
      (∃ e, outcome = Return (JSONResponse HTTP_200_OK (EventJSON e)))
      ∨ outcome = missing
  | PUT_event _ _ => outcome = Raise NotImplementedError
  | PUT_add_persons _ _ =>
      (∃ e, outcome = Return (JSONResponse HTTP_200_OK (EventJSON e)))
      ∨ outcome = Return (JSONResponse HTTP_200_OK Null)
  | PATCH_cancel _ => outcome = Return (JSONResponse HTTP_200_OK Null)
  end.
Proof.
  destruct req as [|event|event persons|event_id|event_id event
                   |event_id person_ids|event_id|event_id];
    cbn [events].
  - by eexists.
  - unfold create_event_without_persons.
    destruct (EventCRUD.create_without_persons _ _ _ _ _) as [created db'].
    by eexists.
  - unfold create_event_with_persons.
    destruct (EventCRUD.create_with_persons _ _ _ _ _ _) as [[created|] db'];
      [left; by eexists | by right].
  - unfold get_event.
    destruct (EventCRUD.read_by_id db event_id) as [db_event|];
      [left; by eexists | by right].
  - reflexivity.
  - unfold add_persons_to_event.
    destruct (EventCRUD.add_people_to_event _ _ _) as [[updated|] db'];
      [left; by eexists | by right].
  - unfold delete_event.
    destruct (EventCRUD.delete_by_id db event_id) as [[deleted|] db'];
      [left; by eexists | by right].
  - reflexivity.
Qed.

(** X2: the listing has one Event for each object that
    [EventCRUD.get_all_events] yields, in the same order and with its id,
    title, description and time; the Persons of each are those that
    [EventCRUD.get_persons_from_event] gives for its id; and when there is no
    Event the answer is 200 with the empty list. *)
Theorem get_all_events_lists_db_events uuid4 db :
  ∃ l, (events uuid4 GET_events db).1
       = Return (JSONResponse HTTP_200_OK (EventListJSON l)) ∧
       length l = length (EventCRUD.get_all_events db) ∧
       ev_id <$> l = db_event_id <$> EventCRUD.get_all_events db ∧
       ev_title <$> l = row_title ∘ db_event_row <$> EventCRUD.get_all_events db ∧
       ev_description <$> l
       = row_description ∘ db_event_row <$> EventCRUD.get_all_events db ∧
       ev_time <$> l = row_time ∘ db_event_row <$> EventCRUD.get_all_events db ∧
       Forall (λ e, ev_persons e = EventCRUD.get_persons_from_event db (ev_id e)) l ∧
       (EventCRUD.get_all_events db = [] → l = []).
Proof.
  eexists. split; [reflexivity|].
  split; [by rewrite length_fmap|].
  repeat (split; [by rewrite <-list_fmap_compose|]).
  split.
  - apply Forall_fmap, Forall_true. by intros db_event.
  - by intros ->.
Qed.
End route_contract.

(** ** Invariants and compositions of the routes over the services *)

Section service_properties.
Import EventService.
Implicit Types (db : Session) (row : EventRow) (attached : gset N).

(** The loop over the person ids, in one equation. *)
Lemma attach_decide db person_ids attached :
  attach db person_ids attached
  = if decide (Forall (λ id, is_Some (person_table db !! id)) person_ids)
    then Some (list_to_set person_ids ∪ attached) else None.
Proof.
  case_decide as Hall; [by apply attach_Some|].
  apply attach_None. apply not_Forall_Exists in Hall; [|apply _].
  eapply Exists_impl; [exact Hall|]. intros id Hid. by apply eq_None_not_Some.
Qed.

Lemma attach_Some_inv db person_ids attached attached' :
  attach db person_ids attached = Some attached' →
  Forall (λ id, is_Some (person_table db !! id)) person_ids
  ∧ attached' = list_to_set person_ids ∪ attached.
Proof. rewrite attach_decide. case_decide; [by intros [= <-] | done]. Qed.

(** Resolving the Persons of a payload: the resolved Persons have the ids of
    the payload, and every one of them exists. *)
Lemma resolve_payload_Some db persons resolved :
  mapM (λ person, PersonService.get db (person_id person)) persons = Some resolved →
  person_id <$> resolved = person_id <$> persons
  ∧ Forall (λ person, is_Some (person_table db !! person_id person)) persons.
Proof.
  intros Hall%mapM_Some_1.
  induction Hall as [|person found persons resolved Hfound _ [IHids IHall]]; [done|].
  split.
  - unfold PersonService.get in Hfound.
    apply fmap_Some in Hfound as (name & _ & ->). cbn. by f_equal.
  - constructor; [|done]. apply person_get_is_Some. by rewrite Hfound.
Qed.

Lemma resolve_payload_is_Some db persons :
  Forall (λ person, is_Some (person_table db !! person_id person)) persons →
  is_Some (mapM (λ person, PersonService.get db (person_id person)) persons).
Proof.
  intros Hall. apply mapM_is_Some_2. eapply Forall_impl; [exact Hall|].
  intros person Hperson. by apply person_get_is_Some.
Qed.

(** Resolving ids that all exist loses none of them. *)
Lemma resolve_ids db (ids : list N) :
  Forall (λ id, is_Some (person_table db !! id)) ids →
  person_id <$> omap (PersonService.get db) ids = ids.
Proof.
  induction 1 as [|id ids [name Hname] _ IH]; [done|].
  cbn. unfold PersonService.get at 1. rewrite Hname. cbn. by rewrite IH.
Qed.

Lemma resolve_elem_of db row id :
  id ∈ row_persons row → is_Some (person_table db !! id) →
  id ∈ person_id <$> resolve db row.
Proof.
  intros Hin [name Hname]. apply list_elem_of_fmap.
  exists (mkPerson id name). split; [done|].
  apply list_elem_of_omap. exists id. split; [by apply elem_of_elements|].
  unfold PersonService.get. by rewrite Hname.
Qed.

Lemma consistent_put_event id row db :
  consistent db →
  set_Forall (λ id, is_Some (person_table db !! id)) (row_persons row) →
  consistent (put_event id row db).
Proof. intros Hdb Hrow. by apply map_Forall_insert_2. Qed.

Lemma consistent_remove_event id db :
  consistent db → consistent (remove_event id db).
Proof. intros Hdb. by apply map_Forall_delete. Qed.

(** X3: referential integrity is an invariant of the router: if every Person
    id associated with an Event has a Person row before a request, the same
    holds after it, whatever the request and whether it succeeds or not. *)
Theorem app_keeps_consistent uuid4 req db :
  consistent db → consistent (app uuid4 req db).2.
Proof.
  intros Hdb. unfold app.
  destruct req as [|event|event persons|event_id|event_id event
                   |event_id person_ids|event_id|event_id];
    cbn [events]; try done.
  - apply consistent_put_event; [done|]. apply set_Forall_empty.
  - unfold create_event_with_persons. cbn [EventCRUD.create_with_persons crud].
    unfold create_with_persons.
    destruct (mapM _ persons) as [resolved|] eqn:Hresolved; [|done].
    cbn. apply consistent_put_event; [done|]. cbn.
    apply resolve_payload_Some in Hresolved as [-> Hall].
    apply set_Forall_list_to_set. by apply Forall_fmap.
  - unfold get_event. by destruct (EventCRUD.read_by_id db event_id).
  - unfold add_persons_to_event. cbn [EventCRUD.add_people_to_event crud].
    unfold add_people_to_event.
    destruct (event_table db !! event_id) as [row|] eqn:Hrow; [|done].
    destruct (attach db person_ids (row_persons row)) as [attached|] eqn:Hattach;
      [|done].
    cbn. apply consistent_put_event; [done|]. cbn.
    apply attach_Some_inv in Hattach as [Hall ->].
    apply set_Forall_union; [by apply set_Forall_list_to_set|].
    exact (map_Forall_lookup_1 _ _ _ _ Hdb Hrow).
  - unfold delete_event. cbn [EventCRUD.delete_by_id crud]. unfold delete_by_id.
    destruct (read_by_id db event_id); [|done].
    cbn. by apply consistent_remove_event.
Qed.

(** X4: no route writes a Person row, and a request leaves every Event row
    other than the one it writes as it was. *)
Theorem app_frame uuid4 req db :
  person_table (app uuid4 req db).2 = person_table db ∧
  ∀ id, written_event uuid4 req ≠ Some id →
        event_table (app uuid4 req db).2 !! id = event_table db !! id.
Proof.
  unfold app.
  destruct req as [|event|event persons|event_id|event_id event
                   |event_id person_ids|event_id|event_id];
    cbn [events written_event]; try done.
  - split; [done|]. intros id Hid. cbn. apply lookup_insert_ne. congruence.
  - unfold create_event_with_persons. cbn [EventCRUD.create_with_persons crud].
    unfold create_with_persons.
    destruct (mapM _ persons) as [resolved|]; [|done].
    split; [done|]. intros id Hid. cbn. apply lookup_insert_ne. congruence.
  - unfold get_event. by destruct (EventCRUD.read_by_id db event_id).
  - unfold add_persons_to_event. cbn [EventCRUD.add_people_to_event crud].
    unfold add_people_to_event.
    destruct (event_table db !! event_id) as [row|]; [|done].
    destruct (attach db person_ids (row_persons row)) as [attached|]; [|done].
    split; [done|]. intros id Hid. cbn. apply lookup_insert_ne. congruence.
  - unfold delete_event. cbn [EventCRUD.delete_by_id crud]. unfold delete_by_id.
    destruct (read_by_id db event_id); [|done].
    split; [done|]. intros id Hid. cbn. apply lookup_delete_ne. congruence.
Qed.
(** The routes over the services, in terms of the service calls. *)
Lemma app_add_persons uuid4 event_id person_ids db :
  app uuid4 (PUT_add_persons event_id person_ids) db
  = (Return (JSONResponse HTTP_200_OK
               (optional (add_people_to_event db person_ids event_id).1)),
     (add_people_to_event db person_ids event_id).2).
Proof.
  unfold app. cbn [events]. unfold add_persons_to_event.
  cbn [EventCRUD.add_people_to_event crud].
  by destruct (add_people_to_event db person_ids event_id).
Qed.

Lemma app_get_event uuid4 event_id db row :
  event_table db !! event_id = Some row →
  app uuid4 (GET_event event_id) db
  = (Return (JSONResponse HTTP_200_OK (EventJSON (snapshot db event_id row))), db).
Proof.
  intros Hrow. unfold app. cbn [events]. unfold get_event.
  cbn [EventCRUD.read_by_id crud]. unfold read_by_id. by rewrite Hrow.
Qed.

(** X5: when every Person of the list resolves, [create_with_persons] answers
    201 with the payload, and stores the Event under the newly assigned id,
    not cancelled, with the ids of the payload's Persons as its association
    set; reading that id gives the fields of the payload and Persons with
    exactly those ids. *)
Theorem create_with_persons_success uuid4 uuid4' event persons db :
  Forall (λ person, is_Some (person_table db !! person_id person)) persons →
  let row :=
    mkEventRow (ev_title event) (ev_description event) (ev_time event) false
               (list_to_set (person_id <$> persons)) in
  let db' := put_event uuid4 row db in
  app uuid4 (POST_create_with_persons event persons) db
  = (Return (JSONResponse HTTP_201_CREATED
               (EventJSON (Event_ (ev_id event) (ev_title event)
                                  (ev_description event) (ev_time event) persons))),
     db') ∧
  ∃ listed,
    app uuid4' (GET_event uuid4) db'
    = (Return (JSONResponse HTTP_200_OK
                 (EventJSON (mkEvent uuid4 (ev_title event) (ev_description event)
                                     (ev_time event) false listed))),
       db') ∧
    list_to_set (person_id <$> listed) =@{gset N} list_to_set (person_id <$> persons).
Proof.
  intros Hall row db'. split.
  - unfold app. cbn [events]. unfold create_event_with_persons.
    cbn [EventCRUD.create_with_persons crud]. unfold create_with_persons.
    destruct (resolve_payload_is_Some db persons Hall) as [resolved Hresolved].
    rewrite Hresolved.
    apply resolve_payload_Some in Hresolved as [-> _]. reflexivity.
  - exists (resolve db' row). split.
    + by rewrite (app_get_event uuid4' uuid4 db' row (put_event_lookup _ _ _)).
    + unfold resolve. rewrite resolve_ids.
      * apply list_to_set_elements_L.
      * apply Forall_forall. intros id Hid%elem_of_elements.
        apply elem_of_list_to_set, list_elem_of_fmap in Hid as (person & -> & Hin).
        by apply (proj1 (Forall_forall _ _) Hall).
Qed.

(** X6: [add_persons_to_event] depends on the body only through the set of
    its ids: two lists with the same ids, in any order and with any
    repetition, give the same response and the same store. *)
Theorem add_persons_set_of_ids uuid4 uuid4' event_id ids1 ids2 db :
  list_to_set ids1 =@{gset N} list_to_set ids2 →
  app uuid4 (PUT_add_persons event_id ids1) db
  = app uuid4' (PUT_add_persons event_id ids2) db.
Proof.
  intros Hids. rewrite !app_add_persons. unfold add_people_to_event.
  destruct (event_table db !! event_id) as [row|]; [|done].
  rewrite !attach_decide, Hids.
  assert (Forall (λ id, is_Some (person_table db !! id)) ids1
          ↔ Forall (λ id, is_Some (person_table db !! id)) ids2) as Hsame.
  { rewrite <-!(set_Forall_list_to_set (C:=gset N)). by rewrite Hids. }
  repeat case_decide; tauto || done.
Qed.

(** X7: when all the Persons exist, adding one list of ids and then another
    gives the response and the store of adding the two lists at once. *)
Theorem add_persons_compose uuid4 uuid4' uuid4'' event_id ids1 ids2 db :
  Forall (λ id, is_Some (person_table db !! id)) (ids1 ++ ids2) →
  app uuid4' (PUT_add_persons event_id ids2)
      (app uuid4 (PUT_add_persons event_id ids1) db).2
  = app uuid4'' (PUT_add_persons event_id (ids1 ++ ids2)) db.
Proof.
  intros Hall. pose proof Hall as [Hall1 Hall2]%Forall_app.
  rewrite !app_add_persons.
  destruct (event_table db !! event_id) as [row|] eqn:Hrow.
  - rewrite (add_people_to_event_found _ _ _ _ Hrow Hall1).
    rewrite (add_people_to_event_found _ _ _ _ Hrow Hall). cbn [fst snd].
    erewrite add_people_to_event_found; [|apply put_event_lookup|exact Hall2].
    rewrite put_event_twice, set_persons_twice. cbn [row_persons set_persons fst snd].
    by rewrite list_to_set_app_L, (assoc_L (∪)),
         (comm_L (∪) (list_to_set ids2) (list_to_set ids1)).
  - assert (∀ ids, add_people_to_event db ids event_id = (None, db)) as Hnone
      by (intros ids; apply add_people_to_event_not_found; by left).
    rewrite (Hnone ids1). cbn [fst snd]. by rewrite (Hnone ids2), (Hnone (ids1 ++ ids2)).
Qed.

(** X8: when the Event and all the Persons exist, [add_persons_to_event]
    answers 200 with the Event as a read right after it gives it: the fields
    of the Event as they were, every added id among its Persons, and no Person
    that was neither added nor associated before. *)
Theorem add_persons_then_read uuid4 uuid4' event_id person_ids db row :
  event_table db !! event_id = Some row →
  Forall (λ id, is_Some (person_table db !! id)) person_ids →
  ∃ listed,
    let updated :=
      mkEvent event_id (row_title row) (row_description row) (row_time row)
              (row_cancelled row) listed in
    let db' := (app uuid4 (PUT_add_persons event_id person_ids) db).2 in
    app uuid4 (PUT_add_persons event_id person_ids) db
    = (Return (JSONResponse HTTP_200_OK (EventJSON updated)), db') ∧
    app uuid4' (GET_event event_id) db'
    = (Return (JSONResponse HTTP_200_OK (EventJSON updated)), db') ∧
    Forall (λ id, id ∈ person_id <$> listed) person_ids ∧
    ∀ id, id ∈ person_id <$> listed → id ∈ person_ids ∨ id ∈ row_persons row.
Proof.
  intros Hrow Hall.
  set (row' := set_persons (list_to_set person_ids ∪ row_persons row) row).
  set (db' := put_event event_id row' db).
  assert (event_table db' !! event_id = Some row') as Hrow'
    by apply put_event_lookup.
  exists (resolve db' row'). cbn zeta.
  rewrite app_add_persons.
  rewrite (add_people_to_event_found _ _ _ _ Hrow Hall). cbn [fst snd].
  fold row' db'. unfold read_by_id. rewrite Hrow'. cbn [fmap option_fmap option_map optional].
  split; [done|]. split; [by rewrite (app_get_event _ _ _ _ Hrow')|]. split.
  - apply Forall_forall. intros id Hid. apply resolve_elem_of.
    + cbn. apply elem_of_union_l. by apply elem_of_list_to_set.
    + by apply (proj1 (Forall_forall _ _) Hall).
  - intros id (person & -> & Hperson)%list_elem_of_fmap.
    apply list_elem_of_omap in Hperson as (id' & Hin%elem_of_elements & Hget).
    unfold PersonService.get in Hget.
    apply fmap_Some in Hget as (name & _ & ->). cbn in *.
    apply elem_of_union in Hin as [Hin%elem_of_list_to_set|Hin]; [by left | by right].
Qed.

(** X9: creating an Event under an id that no Event has and deleting that id
    gives the store back as it was; the deletion answers 200 with the Event as
    it was created, without Persons. *)
Theorem create_then_delete uuid4 uuid4' event db :
  event_table db !! ev_id event = None →
  app uuid4' (DELETE_event (ev_id event))
      (app uuid4 (POST_create_no_persons event) db).2
  = (Return (JSONResponse HTTP_200_OK
               (EventJSON (Event_ (ev_id event) (ev_title event)
                                  (ev_description event) (ev_time event) []))),
     db).
Proof.
  intros Hfresh. unfold app. cbn [events].
  unfold create_event_without_persons, delete_event.
  cbn [EventCRUD.create_without_persons EventCRUD.delete_by_id crud].
  unfold create_without_persons. cbn [prod_map fst snd]. unfold id.
  unfold delete_by_id, read_by_id. rewrite put_event_lookup.
  cbn [fmap option_fmap option_map prod_map fst snd respond]. unfold id.
  rewrite (remove_put_event _ _ _ Hfresh).
  unfold snapshot, resolve. cbn. by rewrite elements_empty.
Qed.

(** X10: the listing shows the stored Events, each once: its ids are the ids
    of the Event rows without repetition, and each listed Event has the
    title, description, time and Persons that reading its id gives. *)
Theorem listing_matches_reads uuid4 uuid4' db :
  ∃ l, app uuid4 GET_events db
       = (Return (JSONResponse HTTP_200_OK (EventListJSON l)), db) ∧
       NoDup (ev_id <$> l) ∧
       length l = size (event_table db) ∧
       (∀ id, id ∈ ev_id <$> l ↔ is_Some (event_table db !! id)) ∧
       Forall (λ e, ∃ read,
                 app uuid4' (GET_event (ev_id e)) db
                 = (Return (JSONResponse HTTP_200_OK (EventJSON read)), db) ∧
                 ev_id e = ev_id read ∧ ev_title e = ev_title read ∧
                 ev_description e = ev_description read ∧
                 ev_time e = ev_time read ∧ ev_persons e = ev_persons read) l.
Proof.
  eexists. split; [reflexivity|].
  cbn [EventCRUD.get_all_events EventCRUD.get_persons_from_event crud].
  unfold get_all_events.
  assert (∀ l : list (N * EventRow),
            ev_id <$> ((λ db_event,
              Event_ (db_event_id db_event) (row_title (db_event_row db_event))
                     (row_description (db_event_row db_event))
                     (row_time (db_event_row db_event))
                     (get_persons_from_event db (db_event_id db_event)))
              <$> ((λ entry, mkDBEvent entry.1 entry.2) <$> l)) = l.*1) as Hids.
  { intros l. rewrite <-!list_fmap_compose. by apply list_fmap_ext. }
  rewrite Hids. split; [apply NoDup_fst_map_to_list|].
  split; [by rewrite !length_fmap, length_map_to_list|]. split.
  - intros id. rewrite list_elem_of_fmap. split.
    + intros ([id' row] & -> & Hin%elem_of_map_to_list). by exists row.
    + intros [row Hrow]. exists (id, row). split; [done|].
      by apply elem_of_map_to_list.
  - apply Forall_fmap, Forall_fmap, Forall_forall.
    intros [id row] Hin%elem_of_map_to_list. cbn.
    exists (snapshot db id row). split; [exact (app_get_event uuid4' id db row Hin)|].
    unfold get_persons_from_event. by rewrite Hin.
Qed.
Lemma app_delete_event uuid4 event_id db :
  app uuid4 (DELETE_event event_id) db
  = match event_table db !! event_id with
    | Some row =>
        (Return (JSONResponse HTTP_200_OK (EventJSON (snapshot db event_id row))),
         remove_event event_id db)
    | None =>
        (Return (JSONResponse HTTP_404_NOT_FOUND (Detail "Person not found")), db)
    end.
Proof.
  unfold app. cbn [events]. unfold delete_event.
  cbn [EventCRUD.delete_by_id crud]. unfold delete_by_id, read_by_id.
  by destruct (event_table db !! event_id).
Qed.

(** X11: a second [DELETE] of the same id answers 404 and leaves the store of
    the first, whether the first found an Event or not. *)
Theorem delete_twice uuid4 uuid4' event_id db :
  let db' := (app uuid4 (DELETE_event event_id) db).2 in
  app uuid4' (DELETE_event event_id) db'
  = (Return (JSONResponse HTTP_404_NOT_FOUND (Detail "Person not found")), db').
Proof.
  intros db'. subst db'. rewrite (app_delete_event uuid4).
  destruct (event_table db !! event_id) as [row|] eqn:Hrow; cbn [snd].
  - rewrite app_delete_event.
    replace (event_table (remove_event event_id db) !! event_id)
      with (@None EventRow); [done|].
    symmetry. apply lookup_delete_eq.
  - by rewrite app_delete_event, Hrow.
Qed.

(** X12: in a consistent store, reading an Event lists exactly the Persons
    of its association set, each once, and each with the name stored for its
    id. *)
Theorem read_lists_associated_persons uuid4 event_id db row :
  consistent db →
  event_table db !! event_id = Some row →
  ∃ e, app uuid4 (GET_event event_id) db
       = (Return (JSONResponse HTTP_200_OK (EventJSON e)), db) ∧
       person_id <$> ev_persons e = elements (row_persons row) ∧
       NoDup (person_id <$> ev_persons e) ∧
       length (ev_persons e) = size (row_persons row) ∧
       Forall (λ person,
                 person_table db !! person_id person = Some (person_name person))
              (ev_persons e).
Proof.
  intros Hdb Hrow. exists (snapshot db event_id row).
  split; [by apply app_get_event|]. cbn [ev_persons snapshot].
  assert (person_id <$> resolve db row = elements (row_persons row)) as Hids.
  { apply resolve_ids, Forall_forall. intros id Hid%elem_of_elements.
    exact (map_Forall_lookup_1 _ _ _ _ Hdb Hrow id Hid). }
  split; [done|]. split; [rewrite Hids; apply NoDup_elements|]. split.
  - by rewrite <-(length_fmap person_id), Hids.
  - apply Forall_forall. intros person Hperson.
    apply list_elem_of_omap in Hperson as (id & _ & Hget).
    unfold PersonService.get in Hget.
    by apply fmap_Some in Hget as (name & Hname & ->).
Qed.
End service_properties.

(** ** The invariants and compositions at the sample store *)

(** The sample store is consistent, and stays so after Event 12 is created
    with Person 1. *)
Lemma app_keeps_consistent_witness :
  consistent sample_db ∧
  consistent (app 12%N (POST_create_with_persons
                          (Event_ 99%N "blah" "blah" 1700007200 [])
                          [mkPerson 1%N "Person2"]) sample_db).2.
Proof.
  assert (consistent sample_db) as Hdb
    by (unfold consistent; apply (bool_decide_unpack _); vm_compute; exact I).
  split; [exact Hdb|].
  exact (app_keeps_consistent 12%N _ sample_db Hdb).
Defined.

(** Person 1 exists: the creation answers 201 and stores Event 12 with the
    association set of Person 1. *)
Lemma create_with_persons_success_witness :
  Forall (λ person, is_Some (person_table sample_db !! person_id person))
         [mkPerson 1%N "Person2"] ∧
  app 12%N (POST_create_with_persons (Event_ 99%N "blah" "blah" 1700007200 [])
                                     [mkPerson 1%N "Person2"]) sample_db
  = (Return (JSONResponse HTTP_201_CREATED
               (EventJSON (Event_ 99%N "blah" "blah" 1700007200
                                  [mkPerson 1%N "Person2"]))),
     EventService.put_event
       12%N (mkEventRow "blah" "blah" 1700007200 false
                        (list_to_set (person_id <$> [mkPerson 1%N "Person2"])))
       sample_db).
Proof.
  assert (Forall (λ person, is_Some (person_table sample_db !! person_id person))
                 [mkPerson 1%N "Person2"]) as Hall
    by (repeat constructor; eexists; vm_compute; reflexivity).
  split; [exact Hall|].
  exact (proj1 (create_with_persons_success
                  12%N 0%N (Event_ 99%N "blah" "blah" 1700007200 [])
                  [mkPerson 1%N "Person2"] sample_db Hall)).
Defined.

(** The bodies [2, 1, 2] and [1, 2] have the same ids. *)
Lemma add_persons_set_of_ids_witness :
  list_to_set [2%N; 1%N; 2%N] =@{gset N} list_to_set [1%N; 2%N] ∧
  app 0%N (PUT_add_persons 11%N [2%N; 1%N; 2%N]) sample_db
  = app 0%N (PUT_add_persons 11%N [1%N; 2%N]) sample_db.
Proof.
  assert (list_to_set [2%N; 1%N; 2%N] =@{gset N} list_to_set [1%N; 2%N]) as Hids
    by (vm_compute; reflexivity).
  split; [exact Hids|].
  exact (add_persons_set_of_ids 0%N 0%N 11%N _ _ sample_db Hids).
Defined.

(** Persons 1 and 2 exist: adding [1] and then [2] to Event 11 is adding
    [1, 2]. *)
Lemma add_persons_compose_witness :
  Forall (λ id, is_Some (person_table sample_db !! id)) ([1%N] ++ [2%N]) ∧
  app 0%N (PUT_add_persons 11%N [2%N])
      (app 0%N (PUT_add_persons 11%N [1%N]) sample_db).2
  = app 0%N (PUT_add_persons 11%N ([1%N] ++ [2%N])) sample_db.
Proof.
  assert (Forall (λ id, is_Some (person_table sample_db !! id)) ([1%N] ++ [2%N]))
    as Hall by (repeat constructor; eexists; vm_compute; reflexivity).
  split; [exact Hall|].
  exact (add_persons_compose 0%N 0%N 0%N 11%N [1%N] [2%N] sample_db Hall).
Defined.

(** Event 11 and Person 2 exist: after adding Person 2 the Event lists it. *)
Lemma add_persons_then_read_witness :
  event_table sample_db !! 11%N
  = Some (mkEventRow "retro" "monthly" 1700003600 true ∅) ∧
  Forall (λ id, is_Some (person_table sample_db !! id)) [2%N] ∧
  ∃ listed,
    (app 0%N (PUT_add_persons 11%N [2%N]) sample_db).1
    = Return (JSONResponse HTTP_200_OK
                (EventJSON (mkEvent 11%N "retro" "monthly" 1700003600 true listed))) ∧
    Forall (λ id, id ∈ person_id <$> listed) [2%N].
Proof.
  assert (event_table sample_db !! 11%N
          = Some (mkEventRow "retro" "monthly" 1700003600 true ∅)) as Hrow
    by (vm_compute; reflexivity).
  assert (Forall (λ id, is_Some (person_table sample_db !! id)) [2%N]) as Hall
    by (repeat constructor; eexists; vm_compute; reflexivity).
  split; [exact Hrow|]. split; [exact Hall|].
  destruct (add_persons_then_read 0%N 0%N 11%N [2%N] sample_db _ Hrow Hall)
    as (listed & Hadd & _ & Hlisted & _).
  exists listed. split; [|exact Hlisted].
  exact (f_equal fst Hadd).
Defined.

(** No Event has the id 7: creating it and deleting it gives the sample
    store back. *)
Lemma create_then_delete_witness :
  event_table sample_db !! 7%N = None ∧
  app 0%N (DELETE_event 7%N)
      (app 0%N (POST_create_no_persons (Event_ 7%N "blah" "blah" 1700007200 []))
           sample_db).2
  = (Return (JSONResponse HTTP_200_OK
               (EventJSON (Event_ 7%N "blah" "blah" 1700007200 []))),
     sample_db).
Proof.
  assert (event_table sample_db !! 7%N = None) as Hfresh by (vm_compute; reflexivity).
  split; [exact Hfresh|].
  exact (create_then_delete 0%N 0%N (Event_ 7%N "blah" "blah" 1700007200 [])
                            sample_db Hfresh).
Defined.

(** The sample store is consistent and Event 10 has Person 1: reading it
    lists one Person, with id 1. *)
Lemma read_lists_associated_persons_witness :
  consistent sample_db ∧
  event_table sample_db !! 10%N
  = Some (mkEventRow "standup" "daily" 1700000000 false {[1%N]}) ∧
  ∃ e, app 0%N (GET_event 10%N) sample_db
       = (Return (JSONResponse HTTP_200_OK (EventJSON e)), sample_db) ∧
       person_id <$> ev_persons e = [1%N].
Proof.
  assert (consistent sample_db) as Hdb
    by (unfold consistent; apply (bool_decide_unpack _); vm_compute; exact I).
  assert (event_table sample_db !! 10%N
          = Some (mkEventRow "standup" "daily" 1700000000 false {[1%N]})) as Hrow
    by (vm_compute; reflexivity).
  split; [exact Hdb|]. split; [exact Hrow|].
  destruct (read_lists_associated_persons 0%N 10%N sample_db _ Hdb Hrow)
    as (e & Hread & Hids & _).
  exists e. split; [exact Hread|]. exact Hids.
Defined.
